(** * gemini_server.py: the chat relay and its diagnostic endpoints

    A shallow embedding of [src/gemini_server.py].  The three handlers
    ([chat_endpoint], [health_check], [test_endpoint]) and the static [root]
    descriptor are written in a small exception-and-trace monad: Python's
    [raise] and [try/except Exception] become [raise_] and [try_except], and
    every call into the google.generativeai client is recorded in a trace so
    that "the provider is not called" is a statement about that trace.

    The port-retry loop of [__main__] is [main], over a host that says how
    [uvicorn.run] ends on each port.

    Standard output is the stream Python opens by default, UTF-8 with the
    strict error handler: [print] raises [UnicodeEncodeError] on a text that
    holds a lone surrogate.  The one [print] that is handed request data
    (line 80) is modelled; the others write fixed ASCII text, numbers and the
    [str()] of an exception, which is taken to hold no lone surrogate.

    Not modelled: the wall clock ([time.time] only feeds a log line), the
    .env loading and the CORS middleware. *)

From Stdlib Require Import ZArith NArith Ascii String Floats.
From stdpp Require Import base option list gmap strings pretty.

Set Warnings "-register-all,-inexact-float".
Local Open Scope Z_scope.

(** ** Python values *)

(** A Python [str] is a sequence of Unicode code points. *)
Abbreviation pystr := (list N).

(** The code points of an ASCII literal of the source. *)
Definition py (s : string) : pystr :=
  (fun a => N_of_ascii a) <$> String.list_ascii_of_string s.

(** [str.isspace] on one code point (CPython's [_PyUnicode_IsWhitespace]). *)
Definition isspace (c : N) : bool :=
  ((0x09 <=? c) && (c <=? 0x0D) || (0x1C <=? c) && (c <=? 0x20)
   || (c =? 0x85) || (c =? 0xA0) || (c =? 0x1680)
   || (0x2000 <=? c) && (c <=? 0x200A)
   || (c =? 0x2028) || (c =? 0x2029) || (c =? 0x202F)
   || (c =? 0x205F) || (c =? 0x3000))%N.

Fixpoint lstrip (s : pystr) : pystr :=
  match s with
  | c :: s' => if isspace c then lstrip s' else s
  | [] => []
  end.

Definition rstrip (s : pystr) : pystr := reverse (lstrip (reverse s)).

(** [s.strip()] with no argument. *)
Definition strip (s : pystr) : pystr := rstrip (lstrip s).

(** What [json.loads] produces, and what the handlers put in their replies. *)
Inductive pyval :=
| PyNone
| PyBool (b : bool)
| PyInt (n : Z)
| PyFloat (f : float)
| PyStr (s : pystr)
| PyList (l : list pyval)
| PyDict (d : gmap pystr pyval).

Abbreviation pydict := (gmap pystr pyval).

(** [type(v).__name__] *)
Definition type_name (v : pyval) : pystr :=
  match v with
  | PyNone => py "NoneType"
  | PyBool _ => py "bool"
  | PyInt _ => py "int"
  | PyFloat _ => py "float"
  | PyStr _ => py "str"
  | PyList _ => py "list"
  | PyDict _ => py "dict"
  end.

(** Truth value of a [str]: the empty string is falsy. *)
Definition bool_str (s : pystr) : bool :=
  match s with
  | [] => false
  | _ :: _ => true
  end.

(** Truth value of an [Optional[str]]: [None] is falsy too. *)
Definition truthy (v : option pystr) : bool :=
  match v with
  | Some s => bool_str s
  | None => false
  end.

(** [a or b] on [Optional[str]]. *)
Definition py_or (a b : option pystr) : option pystr :=
  if truthy a then a else b.

(** ** Exceptions *)

(** The subclasses of [Exception] the handlers can see.  [HTTPException] is
    FastAPI's; [AttributeError] is what a method lookup on the wrong type
    raises; [Exception_] stands for any other subclass of [Exception] (a JSON
    decoding error, whatever the provider client raises) and carries its
    [str()]. *)
Inductive exn :=
| HTTPException (status_code : Z) (detail : pystr)
| AttributeError (ty attr : pystr)
| Exception_ (msg : pystr).

Inductive result (A : Type) :=
| Ok (a : A)
| Raise (e : exn).
Arguments Ok {A} a.
Arguments Raise {A} e.

(** ** The provider client (google.generativeai) *)

Record Part := { text : pystr }.
Record Content := { parts : list Part }.
(** [content] is [None] when the candidate carries no (or a falsy, empty)
    content message; [finish_reason] is the provider's integer enum, which
    every [Candidate] has. *)
Record Candidate := { content : option Content; finish_reason : Z }.
Record GenerateContentResponse := { candidates : list Candidate }.

(** The values of the provider's [Candidate.FinishReason] enum. *)
Definition FINISH_REASON_UNSPECIFIED : Z := 0.
Definition STOP : Z := 1.
Definition MAX_TOKENS : Z := 2.
Definition SAFETY : Z := 3.
Definition RECITATION : Z := 4.
Definition OTHER : Z := 5.

Record Model := {
  (** [model.generate_content(contents)] *)
  generate_content : pyval -> result GenerateContentResponse
}.

Record Genai := {
  (** [genai.GenerativeModel(model_name=, generation_config=, safety_settings=)] *)
  GenerativeModel : pystr -> pyval -> pyval -> result Model
}.

(** What a handler reads from outside itself: the process environment after
    the .env files were loaded, the provider client, and the string form the
    installed FastAPI gives an [HTTPException] (Starlette's [__str__], which
    differs between releases). *)
Record World := {
  environ : gmap pystr pystr;
  genai : Genai;
  HTTPException_str : Z -> pystr -> pystr
}.

(** [str(e)] *)
Definition str (w : World) (e : exn) : pystr :=
  match e with
  | HTTPException status_code detail => HTTPException_str w status_code detail
  | AttributeError ty attr =>
      py "'" ++ ty ++ py "' object has no attribute '" ++ attr ++ py "'"
  | Exception_ msg => msg
  end.

(** ** The handler monad: exceptions and a trace of provider calls *)

Inductive event :=
| CallGenerativeModel (model_name : pystr) (generation_config safety_settings : pyval)
| CallGenerateContent (contents : pyval).

Definition M (A : Type) : Type := list event -> result A * list event.

Definition ret {A} (a : A) : M A := fun t => (Ok a, t).

Definition bind {A B} (m : M A) (k : A -> M B) : M B :=
  fun t =>
    match m t with
    | (Ok a, t') => k a t'
    | (Raise e, t') => (Raise e, t')
    end.

Definition raise_ {A} (e : exn) : M A := fun t => (Raise e, t).

(** [try: m  except Exception as e: h e] *)
Definition try_except {A} (m : M A) (h : exn -> M A) : M A :=
  fun t =>
    match m t with
    | (Ok a, t') => (Ok a, t')
    | (Raise e, t') => h e t'
    end.

(** A call into the provider client: logged, then its outcome. *)
Definition call {A} (ev : event) (r : result A) : M A :=
  fun t => (r, t ++ [ev]).

(** An operation of the language itself (no provider call). *)
Definition lift {A} (r : result A) : M A := fun t => (r, t).

Notation "x <- m ;; k" := (bind m (fun x => k))
  (at level 100, m at next level, right associativity).

(** ** Standard output *)

(** The code points UTF-8 refuses to encode. *)
Definition is_surrogate (c : N) : bool := ((0xD800 <=? c) && (c <=? 0xDFFF))%N.

(** Length of the run of surrogates [s] starts with. *)
Fixpoint surrogate_run (s : pystr) : N :=
  match s with
  | c :: s' => if is_surrogate c then (1 + surrogate_run s')%N else 0%N
  | [] => 0%N
  end.

(** Position and first code point of the first surrogate at or after [pos],
    with the length of its run. *)
Fixpoint first_surrogate (s : pystr) (pos : N) : option (N * N * N) :=
  match s with
  | [] => None
  | c :: s' =>
      if is_surrogate c then Some (pos, c, surrogate_run s)
      else first_surrogate s' (pos + 1)%N
  end.

Definition hex_digit (n : N) : N := (if n <? 10 then 48 + n else 87 + n)%N.

(** [%04x] of a code point below 0x10000. *)
Definition hex4 (c : N) : pystr :=
  [hex_digit (c / 4096 mod 16); hex_digit (c / 256 mod 16);
   hex_digit (c / 16 mod 16); hex_digit (c mod 16)]%N.

(** The [UnicodeEncodeError] the UTF-8 encoder raises on [text], if any, as
    its [str()] shows it. *)
Definition UnicodeEncodeError (text : pystr) : option exn :=
  match first_surrogate text 0 with
  | None => None
  | Some (start, c, len) =>
      Some (Exception_
        (if (len =? 1)%N then
           py "'utf-8' codec can't encode character '\u" ++ hex4 c
           ++ py "' in position " ++ py (pretty start)
           ++ py ": surrogates not allowed"
         else
           py "'utf-8' codec can't encode characters in position "
           ++ py (pretty start) ++ py "-" ++ py (pretty (start + len - 1)%N)
           ++ py ": surrogates not allowed"))
  end.

(** [print(text)] *)
Definition print_ (text : pystr) : M unit :=
  lift (match UnicodeEncodeError text with
        | Some e => Raise e
        | None => Ok tt
        end).

(** ** Python operations the chat handler uses *)

(** [data.get(key, default)]: only a dict has [get]. *)
Definition py_get (data : pyval) (key : pystr) (default : pyval) : result pyval :=
  match data with
  | PyDict d => Ok (match d !! key with Some v => v | None => default end)
  | _ => Raise (AttributeError (type_name data) (py "get"))
  end.

(** [v.strip()]: only a str has [strip]. *)
Definition py_strip (v : pyval) : result pystr :=
  match v with
  | PyStr s => Ok (strip s)
  | _ => Raise (AttributeError (type_name v) (py "strip"))
  end.

(** ** Module-level constants (lines 38-64) *)

Definition GEMINI_API_KEY (w : World) : option pystr :=
  py_or (environ w !! py "GEMINI_API_KEY") (environ w !! py "GOOGLE_API_KEY").

Definition MODEL_NAME : pystr := py "gemini-2.5-flash".

Definition generation_config : pyval :=
  PyDict (<[py "temperature" := PyFloat 0.7]>
         (<[py "top_p" := PyFloat 0.95]>
         (<[py "top_k" := PyInt 0]>
         (<[py "max_output_tokens" := PyInt 1024]> ∅)))).

Definition safety_setting (category : string) : pyval :=
  PyDict (<[py "category" := PyStr (py category)]>
         (<[py "threshold" := PyStr (py "BLOCK_MEDIUM_AND_ABOVE")]> ∅)).

Definition safety_settings : pyval :=
  PyList [safety_setting "HARM_CATEGORY_HARASSMENT";
          safety_setting "HARM_CATEGORY_HATE_SPEECH";
          safety_setting "HARM_CATEGORY_SEXUALLY_EXPLICIT";
          safety_setting "HARM_CATEGORY_DANGEROUS_CONTENT"].

(** ** POST /chat (lines 66-136) *)

(** The awaited [request.json()]: the decoded body, or the decoder's error. *)
Record Request := { json : result pyval }.

(** The text of line 80's f-string.  The line is reached only after
    [user_input.strip()] succeeded, so [user_input] is a str there (for any
    other value the slice is left empty). *)
Definition processing_line (user_input : pyval) : pystr :=
  py "Processing chat request: '"
  ++ match user_input with
     | PyStr s => take 50 s
     | _ => []
     end
  ++ py "...' (if longer)".

(** The dict returned at lines 114-118. *)
Definition chat_reply (text_response : pystr) (is_filtered : bool) : pydict :=
  <[py "response" := PyStr text_response]>
  (<[py "model" := PyStr MODEL_NAME]>
  (<[py "filtered" := PyBool is_filtered]> ∅)).

(** The dict returned at lines 123-127. *)
Definition model_error_reply (w : World) (model_error : exn) : pydict :=
  <[py "response" := PyStr (py "I'm sorry, but I encountered an issue processing your request. This may be due to content safety policies or technical limitations.")]>
  (<[py "model" := PyStr MODEL_NAME]>
  (<[py "error" := PyStr (str w model_error)]> ∅)).

(** The dict returned at lines 132-136. *)
Definition chat_error_reply (w : World) (e : exn) : pydict :=
  <[py "response" := PyStr (py "I apologize, but I'm having technical difficulties processing your request. Please try again with a different query.")]>
  (<[py "model" := PyStr MODEL_NAME]>
  (<[py "error" := PyStr (str w e)]> ∅)).

Definition chat_endpoint (w : World) (request : Request) : M pydict :=
  try_except
    (data <- lift (json request) ;;
     user_input <- lift (py_get data (py "message") (PyStr [])) ;;
     stripped <- lift (py_strip user_input) ;;
     if negb (bool_str stripped) then
       raise_ (HTTPException 400 (py "Message cannot be empty"))
     else if negb (truthy (GEMINI_API_KEY w)) then
       raise_ (HTTPException 500 (py "Gemini API key not configured"))
     else
       logged <- print_ (processing_line user_input) ;;
       try_except
         (model <- call (CallGenerativeModel MODEL_NAME generation_config safety_settings)
                        (GenerativeModel (genai w) MODEL_NAME generation_config safety_settings) ;;
          response <- call (CallGenerateContent user_input)
                           (generate_content model user_input) ;;
          if bool_decide (candidates response = []) then
            raise_ (HTTPException 500 (py "No response generated from Gemini"))
          else
            (* line 97: candidates, candidates[0].content and its parts are all
               truthy; line 98 then reads parts[0].text *)
            let first_text :=
              c ← head (candidates response);
              ct ← content c;
              p ← head (parts ct);
              Some (text p) in
            let text_response :=
              match first_text with
              | Some t => t
              | None => py "I'm unable to provide a response to that request due to content safety policies."
              end in
            let is_filtered :=
              match head (candidates response) with
              | Some c => bool_decide (finish_reason c = 2)
              | None => false
              end in
            ret (chat_reply text_response is_filtered))
         (fun model_error => ret (model_error_reply w model_error)))
    (fun e => ret (chat_error_reply w e)).

(** ** GET /health (lines 138-151) *)

Definition health_check (w : World) : M pydict :=
  let model_loaded := truthy (GEMINI_API_KEY w) in
  let model_info :=
    if model_loaded then
      PyDict (<[py "name" := PyStr MODEL_NAME]> (<[py "type" := PyStr (py "text")]> ∅))
    else PyNone in
  ret (<[py "status" := PyStr (py "healthy")]>
      (<[py "model_loaded" := PyBool model_loaded]>
      (<[py "model_info" := model_info]> ∅))).

(** ** GET /test (lines 153-190) *)

Definition test_prompt : pyval := PyStr (py "Hello, are you working properly?").

Definition test_endpoint (w : World) : M pydict :=
  if negb (truthy (GEMINI_API_KEY w)) then
    ret (<[py "success" := PyBool false]>
        (<[py "error" := PyStr (py "Gemini API key not configured")]> ∅))
  else
    try_except
      (model <- call (CallGenerativeModel MODEL_NAME generation_config safety_settings)
                     (GenerativeModel (genai w) MODEL_NAME generation_config safety_settings) ;;
       response <- call (CallGenerateContent test_prompt)
                        (generate_content model test_prompt) ;;
       let first_text :=
         c ← head (candidates response);
         ct ← content c;
         p ← head (parts ct);
         Some (text p) in
       let text_response :=
         match first_text with
         | Some t => t
         | None => py "I'm functioning correctly, but this test response was filtered."
         end in
       ret (<[py "success" := PyBool true]>
           (<[py "model" := PyStr MODEL_NAME]>
           (<[py "response" := PyStr text_response]> ∅))))
      (fun e =>
         ret (<[py "success" := PyBool false]>
             (<[py "error" := PyStr (str w e)]> ∅))).

(** ** GET / (lines 192-200) *)

Definition root : M pydict :=
  ret (<[py "status" := PyStr (py "running")]>
      (<[py "provider" := PyStr (py "Google Gemini AI")]>
      (<[py "model" := PyStr MODEL_NAME]>
      (<[py "endpoints" := PyList [PyStr (py "/health"); PyStr (py "/chat"); PyStr (py "/test")]]> ∅)))).

(** ** What FastAPI makes of a handler's outcome *)

Record HttpResponse := { status : Z; body : pyval }.

(** A returned dict is sent as JSON with status 200; an [HTTPException] that
    leaves the handler is sent with its own status code and its detail; any
    other exception is a plain 500. *)
Definition respond (r : result pydict) : HttpResponse :=
  match r with
  | Ok d => {| status := 200; body := PyDict d |}
  | Raise (HTTPException status_code detail) =>
      {| status := status_code; body := PyDict (<[py "detail" := PyStr detail]> ∅) |}
  | Raise _ => {| status := 500; body := PyStr (py "Internal Server Error") |}
  end.

(** One request served from an empty trace: the response sent and the
    provider calls made on the way. *)
Definition serve (handler : M pydict) : HttpResponse * list event :=
  let '(r, t) := handler [] in (respond r, t).

Definition POST_chat (w : World) (request : Request) := serve (chat_endpoint w request).
Definition GET_health (w : World) := serve (health_check w).
Definition GET_test (w : World) := serve (test_endpoint w).
Definition GET_root := serve root.

(** [field r k]: the value under key [k] of a JSON-object body, if any. *)
Definition field (r : HttpResponse) (k : string) : option pyval :=
  match body r with
  | PyDict d => d !! py k
  | _ => None
  end.

(** ** Stubs: a provider with one canned outcome, and small requests *)

(** Starlette's [HTTPException.__str__] in its current releases:
    [f"{status_code}: {detail}"]. *)
Definition starlette_str (status_code : Z) (detail : pystr) : pystr :=
  py (pretty status_code) ++ py ": " ++ detail.

Definition stub_genai (outcome : result GenerateContentResponse) : Genai :=
  {| GenerativeModel := fun _ _ _ => Ok {| generate_content := fun _ => outcome |} |}.

(** A provider whose model cannot even be constructed. *)
Definition broken_genai (e : exn) : Genai :=
  {| GenerativeModel := fun _ _ _ => Raise e |}.

Definition with_key (g : Genai) : World :=
  {| environ := <[py "GEMINI_API_KEY" := py "test-key"]> ∅;
     genai := g;
     HTTPException_str := starlette_str |}.

Definition without_key (g : Genai) : World :=
  {| environ := ∅; genai := g; HTTPException_str := starlette_str |}.

Definition message_request (m : pystr) : Request :=
  {| json := Ok (PyDict (<[py "message" := PyStr m]> ∅)) |}.

Definition text_candidate (t : string) (reason : Z) : Candidate :=
  {| content := Some {| parts := [{| text := py t |}] |}; finish_reason := reason |}.

Definition empty_candidate (reason : Z) : Candidate :=
  {| content := Some {| parts := [] |}; finish_reason := reason |}.

(** ** Vocabulary of the specification *)

(** The message is empty or holds white space only. *)
Definition blank (m : pystr) : Prop := Forall (fun c => isspace c = true) m.

(** The request's JSON body is an object whose "message" is the str [m]. *)
Definition carries_message (request : Request) (m : pystr) : Prop :=
  exists d, json request = Ok (PyDict d) /\ d !! py "message" = Some (PyStr m).

(** A provider credential is configured: one of the two recognised
    environment variables holds a non-empty value. *)
Definition credential_configured (w : World) : Prop :=
  exists name key,
    (name = py "GEMINI_API_KEY" \/ name = py "GOOGLE_API_KEY")
    /\ environ w !! name = Some key /\ key <> [].

(** The log line of line 80 can be written for the message [m]: none of its
    first 50 code points is a lone surrogate. *)
Definition loggable (m : pystr) : Prop :=
  Forall (fun c => is_surrogate c = false) (take 50 m).


(** The provider call as a whole: the model is constructed with the fixed
    configuration and then asked to generate from [contents]. *)
Definition provider_outcome (w : World) (contents : pyval)
  : result GenerateContentResponse :=
  match GenerativeModel (genai w) MODEL_NAME generation_config safety_settings with
  | Ok model => generate_content model contents
  | Raise e => Raise e
  end.

(** The candidate has no content parts: its content is missing or has an
    empty list of parts. *)
Definition no_parts (c : Candidate) : Prop :=
  content c = None \/ exists ct, content c = Some ct /\ parts ct = [].

(** The provider calls one request makes when both are reached. *)
Definition both_calls (contents : pyval) : list event :=
  [CallGenerativeModel MODEL_NAME generation_config safety_settings;
   CallGenerateContent contents].

(** ** Start-up (lines 202-218) *)

(** How [uvicorn.run] can fail: with an [OSError] or with an exception of
    another class, each known by its [str()]. *)
Inductive startup_error :=
| OSError (msg : pystr)
| OtherError (msg : pystr).

(** What the start-up loop reads from outside itself: how serving on a port
    ends ([None]: the server ran and returned), and Python's [str.lower],
    whose Unicode case table is not reproduced here. *)
Record Host := {
  uvicorn_run : Z -> option startup_error;
  lower : pystr -> pystr
}.

Fixpoint startswith (needle s : pystr) : bool :=
  match needle, s with
  | [], _ => true
  | a :: needle', b :: s' => (a =? b)%N && startswith needle' s'
  | _ :: _, [] => false
  end.

(** [needle in s] on two strs. *)
Fixpoint contains (needle s : pystr) : bool :=
  startswith needle s
  || match s with
     | [] => false
     | _ :: s' => contains needle s'
     end.

Definition max_retries : Z := 5.

(** How the script ends: the server ran on [port] and returned, an exception
    left the loop, or the [for] ran out of attempts. *)
Inductive main_outcome :=
| Served (port : Z)
| Failed (e : startup_error)
| LoopEnded.

(** The body of the [for attempt in range(max_retries)] loop, over the
    attempts still to come; the second component lists the ports handed to
    [uvicorn.run], in order. *)
Fixpoint retry_loop (h : Host) (attempts : list Z) (port : Z)
  : main_outcome * list Z :=
  match attempts with
  | [] => (LoopEnded, [])
  | attempt :: later =>
      match uvicorn_run h port with
      | None => (Served port, [port])
      | Some (OSError msg) =>
          if contains (py "address already in use") (lower h msg)
             && bool_decide (attempt < max_retries - 1)
          then let '(o, tried) := retry_loop h later (port + 1) in (o, port :: tried)
          else (Failed (OSError msg), [port])
      | Some e => (Failed e, [port])
      end
  end.

Definition main (h : Host) : main_outcome * list Z :=
  retry_loop h (seqZ 0 max_retries) 8095.

(** The error is an [OSError] whose lower-cased text mentions the address
    being in use: the one the loop retries on. *)
Definition in_use (h : Host) (e : startup_error) : bool :=
  match e with
  | OSError msg => contains (py "address already in use") (lower h msg)
  | OtherError _ => false
  end.

(** Serving on [port] fails because the address is in use. *)
Definition busy (h : Host) (port : Z) : Prop :=
  exists e, uvicorn_run h port = Some e /\ in_use h e = true.

(** [str.lower] on ASCII text, for the stub hosts. *)
Definition ascii_lower (s : pystr) : pystr :=
  (fun c => if (0x41 <=? c) && (c <=? 0x5A) then c + 32 else c)%N <$> s.

(** A host on which the ports below [free] are taken and the others serve. *)
Definition host_free_from (free : Z) : Host :=
  {| uvicorn_run := fun port =>
       if bool_decide (port < free)
       then Some (OSError (py "[Errno 98] Address already in use"))
       else None;
     lower := ascii_lower |}.

(** A host on which the ports below [bad] are taken and [bad] fails with [e]. *)
Definition host_failing_at (bad : Z) (e : startup_error) : Host :=
  {| uvicorn_run := fun port =>
       if bool_decide (port < bad)
       then Some (OSError (py "[Errno 98] Address already in use"))
       else Some e;
     lower := ascii_lower |}.

(** * Properties *)

(** ** Stripping *)

Lemma lstrip_nil (s : pystr) : lstrip s = [] <-> blank s.
Proof.
  unfold blank. induction s as [|c s IH]; simpl.
  - split; [constructor | reflexivity].
  - destruct (isspace c) eqn:Hc.
    + rewrite IH. split; [by constructor | by inversion 1].
    + split; [discriminate | inversion 1; congruence].
Qed.

Lemma lstrip_blank_fixed (s : pystr) : blank (lstrip s) -> lstrip s = [].
Proof.
  induction s as [|c s IH]; simpl; [done|].
  destruct (isspace c) eqn:Hc; [exact IH|].
  inversion 1; congruence.
Qed.

(** [not m.strip()] holds exactly for the blank messages. *)
Lemma strip_nil (s : pystr) : strip s = [] <-> blank s.
Proof.
  unfold strip, rstrip. split.
  - intros H. apply lstrip_nil, lstrip_blank_fixed.
    apply (f_equal reverse) in H. rewrite reverse_involutive in H.
    change (reverse []) with (@nil N) in H.
    apply lstrip_nil in H. unfold blank in *.
    by apply Forall_reverse.
  - intros H. apply lstrip_nil in H. by rewrite H.
Qed.

Lemma bool_str_strip (m : pystr) : ~ blank m -> bool_str (strip m) = true.
Proof.
  intros H. destruct (strip m) eqn:E; [|done].
  destruct H. by apply strip_nil.
Qed.

Lemma bool_str_strip_blank (m : pystr) : blank m -> bool_str (strip m) = false.
Proof. intros H. apply strip_nil in H. by rewrite H. Qed.

(** ** The credential *)

Lemma truthy_Some (v : option pystr) :
  truthy v = true <-> exists key, v = Some key /\ key <> [].
Proof.
  destruct v as [[|c s]|]; simpl; split; try done.
  - by intros (key & [= <-] & ?).
  - intros _. by exists (c :: s).
  - by intros (key & ? & _).
Qed.

Lemma credential_truthy (w : World) :
  truthy (GEMINI_API_KEY w) = true <-> credential_configured w.
Proof.
  unfold GEMINI_API_KEY, py_or, credential_configured.
  destruct (truthy (environ w !! py "GEMINI_API_KEY")) eqn:Hg.
  - rewrite Hg. split; [|done]. intros _.
    apply truthy_Some in Hg as (key & ? & ?). exists (py "GEMINI_API_KEY"), key. auto.
  - split.
    + intros (key & ? & ?)%truthy_Some. exists (py "GOOGLE_API_KEY"), key. auto.
    + intros (name & key & [-> | ->] & Hl & Hne).
      * assert (truthy (environ w !! py "GEMINI_API_KEY") = true) as Ht
          by (apply truthy_Some; eauto).
        congruence.
      * apply truthy_Some; eauto.
Qed.

(** ** Writing the log line *)

Lemma first_surrogate_None (s : pystr) (pos : N) :
  first_surrogate s pos = None <-> Forall (fun c => is_surrogate c = false) s.
Proof.
  revert pos. induction s as [|c s IH]; intros pos; simpl.
  - split; [constructor | reflexivity].
  - destruct (is_surrogate c) eqn:Hc.
    + split; [discriminate | inversion 1; congruence].
    + rewrite IH. split; [by constructor | by inversion 1].
Qed.

Lemma UnicodeEncodeError_None (text : pystr) :
  UnicodeEncodeError text = None <-> Forall (fun c => is_surrogate c = false) text.
Proof.
  unfold UnicodeEncodeError. rewrite <- (first_surrogate_None text 0).
  destruct (first_surrogate text 0) as [[[start c] len]|]; split; done.
Qed.

(** The log line of line 80 is written exactly for the loggable messages. *)
Lemma processing_line_loggable (m : pystr) :
  UnicodeEncodeError (processing_line (PyStr m)) = None <-> loggable m.
Proof.
  rewrite UnicodeEncodeError_None. unfold processing_line, loggable.
  rewrite !Forall_app. split; [tauto|]. intros H.
  split; [|split; [done|]]; by vm_compute; repeat constructor.
Qed.

(** ** Keys of the three dicts [chat_endpoint] returns *)

Lemma chat_reply_response txt f : chat_reply txt f !! py "response" = Some (PyStr txt).
Proof. reflexivity. Qed.
Lemma chat_reply_model txt f : chat_reply txt f !! py "model" = Some (PyStr MODEL_NAME).
Proof. reflexivity. Qed.
Lemma chat_reply_filtered txt f : chat_reply txt f !! py "filtered" = Some (PyBool f).
Proof. reflexivity. Qed.
Lemma chat_reply_error txt f : chat_reply txt f !! py "error" = None.
Proof. reflexivity. Qed.

Lemma model_error_reply_response w e :
  model_error_reply w e !! py "response" =
  Some (PyStr (py "I'm sorry, but I encountered an issue processing your request. This may be due to content safety policies or technical limitations.")).
Proof. reflexivity. Qed.
Lemma model_error_reply_model w e :
  model_error_reply w e !! py "model" = Some (PyStr MODEL_NAME).
Proof. reflexivity. Qed.
Lemma model_error_reply_error w e :
  model_error_reply w e !! py "error" = Some (PyStr (str w e)).
Proof. reflexivity. Qed.
Lemma model_error_reply_filtered w e : model_error_reply w e !! py "filtered" = None.
Proof. reflexivity. Qed.

Lemma chat_error_reply_response w e :
  chat_error_reply w e !! py "response" =
  Some (PyStr (py "I apologize, but I'm having technical difficulties processing your request. Please try again with a different query.")).
Proof. reflexivity. Qed.
Lemma chat_error_reply_model w e :
  chat_error_reply w e !! py "model" = Some (PyStr MODEL_NAME).
Proof. reflexivity. Qed.
Lemma chat_error_reply_error w e :
  chat_error_reply w e !! py "error" = Some (PyStr (str w e)).
Proof. reflexivity. Qed.
Lemma chat_error_reply_filtered w e : chat_error_reply w e !! py "filtered" = None.
Proof. reflexivity. Qed.

Create Rewrite HintDb reply.
#[local] Hint Rewrite
  chat_reply_response chat_reply_model chat_reply_filtered chat_reply_error
  model_error_reply_response model_error_reply_model
  model_error_reply_error model_error_reply_filtered
  chat_error_reply_response chat_error_reply_model
  chat_error_reply_error chat_error_reply_filtered : reply.

(** A served dict: status 200, and [field] is a lookup in it. *)
Lemma serve_returned (h : M pydict) (d : pydict) (t : list event) :
  h [] = (Ok d, t) -> serve h = ({| status := 200; body := PyDict d |}, t).
Proof. unfold serve. by intros ->. Qed.

(** ** POST /chat behind its two guards *)

(** Unfolds the handler up to the inner [try], given a message that passes
    the blank test and a configured credential. *)
Ltac chat_prelude Hmessage Hnonblank Hkey Hlog :=
  let d := fresh "d" in
  let Hjson := fresh "Hjson" in
  let Hmsg := fresh "Hmsg" in
  destruct Hmessage as (d & Hjson & Hmsg);
  unfold chat_endpoint, try_except, bind, print_, lift, call, ret, raise_;
  rewrite Hjson; cbn [py_get]; rewrite Hmsg; cbn [py_strip];
  rewrite (bool_str_strip _ Hnonblank);
  rewrite (proj2 (credential_truthy _) Hkey); cbn [negb];
  rewrite (proj2 (processing_line_loggable _) Hlog); cbn [app].

Section ValidChat.
Context (w : World) (request : Request) (m : pystr).
Hypothesis Hmessage : carries_message request m.
Hypothesis Hnonblank : ~ blank m.
Hypothesis Hkey : credential_configured w.
Hypothesis Hlog : loggable m.



Lemma chat_first_text response c rest ct p ps :
  provider_outcome w (PyStr m) = Ok response ->
  candidates response = c :: rest ->
  content c = Some ct ->
  parts ct = p :: ps ->
  chat_endpoint w request [] =
  (Ok (chat_reply (text p) (bool_decide (finish_reason c = 2))), both_calls (PyStr m)).
Proof.
  intros Hout Hc Hct Hp. unfold provider_outcome in Hout.
  chat_prelude Hmessage Hnonblank Hkey Hlog.
  destruct (GenerativeModel _ _ _ _) as [model|e']; [|done].
  rewrite Hout, Hc. cbn. rewrite Hct. cbn. rewrite Hp. reflexivity.
Qed.

Lemma chat_first_no_parts response c rest :
  provider_outcome w (PyStr m) = Ok response ->
  candidates response = c :: rest ->
  no_parts c ->
  chat_endpoint w request [] =
  (Ok (chat_reply
         (py "I'm unable to provide a response to that request due to content safety policies.")
         (bool_decide (finish_reason c = 2))),
   both_calls (PyStr m)).
Proof.
  intros Hout Hc Hno. unfold provider_outcome in Hout.
  chat_prelude Hmessage Hnonblank Hkey Hlog.
  destruct (GenerativeModel _ _ _ _) as [model|e']; [|done].
  rewrite Hout, Hc. cbn.
  destruct Hno as [-> | (ct & -> & Hp)]; cbn; [|rewrite Hp]; reflexivity.
Qed.
End ValidChat.

(** ** POST /chat in front of its guards *)

(** Whatever the world and the request, the handler returns one of its three
    dicts and raises nothing. *)
Lemma chat_endpoint_returns (w : World) (request : Request) :
  exists t,
    (exists txt f, chat_endpoint w request [] = (Ok (chat_reply txt f), t))
    \/ (exists e, chat_endpoint w request [] = (Ok (model_error_reply w e), t))
    \/ (exists e, chat_endpoint w request [] = (Ok (chat_error_reply w e), t)).
Proof.
  unfold chat_endpoint, try_except, bind, print_, lift, call, ret, raise_.
  destruct (json request) as [data|e]; [|by eauto 6].
  destruct (py_get data _ _) as [user_input|e]; [|by eauto 6].
  destruct (py_strip user_input) as [stripped|e]; [|by eauto 6].
  destruct (bool_str stripped); cbn [negb]; [|by eauto 6].
  destruct (truthy (GEMINI_API_KEY w)); cbn [negb]; [|by eauto 6].
  destruct (UnicodeEncodeError _) as [e|]; [by eauto 6|].
  destruct (GenerativeModel _ _ _ _) as [model|e]; [|by eauto 6].
  destruct (generate_content model user_input) as [response|e]; [|by eauto 6].
  destruct (bool_decide _); by eauto 6.
Qed.

(** A blank message is stopped by the first guard; the [HTTPException] it
    raises is caught by the handler's own outer [except]. *)
Lemma chat_blank_message (w : World) (request : Request) (m : pystr) :
  carries_message request m -> blank m ->
  chat_endpoint w request [] =
  (Ok (chat_error_reply w (HTTPException 400 (py "Message cannot be empty"))), []).
Proof.
  intros (d & Hjson & Hmsg) Hblank.
  unfold chat_endpoint, try_except, bind, lift, call, ret, raise_.
  rewrite Hjson. cbn [py_get]. rewrite Hmsg. cbn [py_strip].
  by rewrite (bool_str_strip_blank _ Hblank).
Qed.

(** A body without a "message" key takes the default [""] and ends the same way. *)
Lemma chat_missing_message (w : World) (request : Request) (d : pydict) :
  json request = Ok (PyDict d) -> d !! py "message" = None ->
  chat_endpoint w request [] =
  (Ok (chat_error_reply w (HTTPException 400 (py "Message cannot be empty"))), []).
Proof.
  intros Hjson Hmsg.
  unfold chat_endpoint, try_except, bind, lift, call, ret, raise_.
  rewrite Hjson. cbn [py_get]. by rewrite Hmsg.
Qed.

(** So is the second guard's, when no credential is configured. *)
Lemma chat_missing_credential (w : World) (request : Request) (m : pystr) :
  carries_message request m -> ~ blank m -> ~ credential_configured w ->
  chat_endpoint w request [] =
  (Ok (chat_error_reply w (HTTPException 500 (py "Gemini API key not configured"))), []).
Proof.
  intros (d & Hjson & Hmsg) Hnonblank Hkey.
  unfold chat_endpoint, try_except, bind, lift, call, ret, raise_.
  rewrite Hjson. cbn [py_get]. rewrite Hmsg. cbn [py_strip].
  rewrite (bool_str_strip _ Hnonblank). cbn [negb].
  destruct (truthy (GEMINI_API_KEY w)) eqn:Ht; [|done].
  by apply credential_truthy in Ht.
Qed.

(** ** Facts about the stubs *)

Lemma message_request_carries (m : pystr) : carries_message (message_request m) m.
Proof. by eexists. Qed.

Lemma with_key_configured (g : Genai) : credential_configured (with_key g).
Proof. exists (py "GEMINI_API_KEY"), (py "test-key"). by auto. Qed.

Lemma without_key_unconfigured (g : Genai) : ~ credential_configured (without_key g).
Proof. by intros (name & key & _ & ? & _). Qed.

Lemma not_blank_strip (m : pystr) : bool_str (strip m) = true -> ~ blank m.
Proof. intros H Hb. apply strip_nil in Hb. by rewrite Hb in H. Qed.

(** ** Reaching the provider *)


(** * The claims *)

(** C1 (as the code behaves): a whitespace-only message never reaches the
    provider, but the request is answered with status 200 and the outer
    handler's apology, the 400 surviving only as text under [error]. *)
Theorem chat_blank_message_answered_200 :
  let w := with_key (stub_genai (Ok {| candidates := [text_candidate "hello" 1] |})) in
  let r := POST_chat w (message_request (py "   ")) in
  status r.1 = 200
  /\ field r.1 "response" = Some (PyStr (py "I apologize, but I'm having technical difficulties processing your request. Please try again with a different query."))
  /\ field r.1 "error" = Some (PyStr (py "400: Message cannot be empty"))
  /\ r.2 = [].
Proof. repeat split; vm_compute; reflexivity. Qed.

(** C2 (as the code behaves): with no credential configured a non-blank
    message is answered with status 200 and the outer handler's apology, the
    500 surviving only as text under [error]. *)
Theorem chat_missing_credential_answered_200 :
  let w := without_key (stub_genai (Ok {| candidates := [text_candidate "hello" 1] |})) in
  let r := POST_chat w (message_request (py "hi")) in
  status r.1 = 200
  /\ field r.1 "response" = Some (PyStr (py "I apologize, but I'm having technical difficulties processing your request. Please try again with a different query."))
  /\ field r.1 "error" = Some (PyStr (py "500: Gemini API key not configured"))
  /\ r.2 = [].
Proof. repeat split; vm_compute; reflexivity. Qed.




(** C4 (as the code behaves): a first candidate with text that stopped at
    the token limit ([MAX_TOKENS], not a safety stop) is answered with its
    text and no [error], but with [filtered] true: line 111 compares the
    finish reason with 2, which is [MAX_TOKENS] in the provider's enum. *)
Theorem chat_max_tokens_reported_filtered :
  let w := with_key (stub_genai (Ok {| candidates := [text_candidate "hello" MAX_TOKENS] |})) in
  let r := (POST_chat w (message_request (py "hi"))).1 in
  MAX_TOKENS <> SAFETY
  /\ status r = 200
  /\ field r "response" = Some (PyStr (py "hello"))
  /\ field r "error" = None
  /\ field r "filtered" = Some (PyBool true).
Proof. repeat split; vm_compute; (reflexivity || discriminate). Qed.

(** C5 (as the code behaves): a first candidate with text and the finish
    reason [SAFETY] is answered with [filtered] false, and a first candidate
    without content parts that stopped at [MAX_TOKENS] is answered with the
    substituted apology and [filtered] true: the flag follows the literal 2
    of line 111, not the provider's safety value. *)
Theorem chat_safety_not_reported_filtered :
  let blocked := with_key (stub_genai (Ok {| candidates := [text_candidate "hello" SAFETY] |})) in
  let truncated := with_key (stub_genai (Ok {| candidates := [empty_candidate MAX_TOKENS] |})) in
  let r1 := (POST_chat blocked (message_request (py "hi"))).1 in
  let r2 := (POST_chat truncated (message_request (py "hi"))).1 in
  (field r1 "response" = Some (PyStr (py "hello"))
   /\ field r1 "filtered" = Some (PyBool false))
  /\ (MAX_TOKENS <> SAFETY
      /\ field r2 "response" = Some (PyStr (py "I'm unable to provide a response to that request due to content safety policies."))
      /\ field r2 "filtered" = Some (PyBool true)).
Proof. repeat split; vm_compute; (reflexivity || discriminate). Qed.



(** C7: GET /health always answers [status] "healthy"; [model_loaded] is
    true exactly when a credential is configured; [model_info] is the
    {name, type} dict when it is and null otherwise; the provider is not
    called. *)
Theorem health_check_reports (w : World) :
  let r := GET_health w in
  r.2 = []
  /\ status r.1 = 200
  /\ field r.1 "status" = Some (PyStr (py "healthy"))
  /\ exists loaded : bool,
       field r.1 "model_loaded" = Some (PyBool loaded)
       /\ (loaded = true <-> credential_configured w)
       /\ field r.1 "model_info" =
          Some (if loaded
                then PyDict (<[py "name" := PyStr MODEL_NAME]>
                            (<[py "type" := PyStr (py "text")]> ∅))
                else PyNone).
Proof.
  unfold GET_health, serve, health_check, ret, field. cbn [fst snd status body].
  split; [reflexivity|]. split; [reflexivity|]. split; [reflexivity|].
  exists (truthy (GEMINI_API_KEY w)).
  split; [reflexivity|]. split; [apply credential_truthy|reflexivity].
Qed.



(** C9: on every path the /chat handler returns a dict (it raises nothing)
    that holds a str under [response] and the fixed model name under
    [model]. *)
Theorem chat_reply_always_has_response_and_model (w : World) (request : Request) :
  exists (d : pydict) (t : list event) (s : pystr),
    chat_endpoint w request [] = (Ok d, t)
    /\ d !! py "response" = Some (PyStr s)
    /\ d !! py "model" = Some (PyStr MODEL_NAME).
Proof.
  destruct (chat_endpoint_returns w request)
    as (t & [(txt & f & H) | [(e & H) | (e & H)]]);
    rewrite H; eexists _, t, _; (split; [reflexivity|]);
    autorewrite with reply; split; reflexivity.
Qed.


(** * Further properties of the handlers *)

(** ** POST /chat: requests that never reach the guards *)

(** X1: POST /chat answers every request, in every world, with status 200
    and a JSON object: no exception leaves the handler. *)
Theorem POST_chat_always_200 (w : World) (request : Request) :
  exists d : pydict,
    (POST_chat w request).1 = {| status := 200; body := PyDict d |}.
Proof.
  unfold POST_chat.
  destruct (chat_endpoint_returns w request)
    as (t & [(txt & f & H) | [(e & H) | (e & H)]]);
    rewrite (serve_returned _ _ _ H); by eexists.
Qed.

(** X2: when the body cannot be decoded ([request.json()] raises [e]), the
    reply is the outer handler's apology with [str(e)] under [error], and
    the provider is not called. *)
Theorem chat_undecodable_body (w : World) (request : Request) (e : exn) :
  json request = Raise e ->
  POST_chat w request =
  ({| status := 200; body := PyDict (chat_error_reply w e) |}, []).
Proof.
  intros Hjson. unfold POST_chat. apply serve_returned.
  unfold chat_endpoint, try_except, bind, lift, ret.
  by rewrite Hjson.
Qed.

(** X2 at a body that is not JSON. *)
Lemma chat_undecodable_body_witness :
  let r := POST_chat (with_key (stub_genai (Ok {| candidates := [text_candidate "hello" 1] |})))
                     {| json := Raise (Exception_ (py "Expecting value: line 1 column 1 (char 0)")) |} in
  field r.1 "response" = Some (PyStr (py "I apologize, but I'm having technical difficulties processing your request. Please try again with a different query."))
  /\ field r.1 "error" = Some (PyStr (py "Expecting value: line 1 column 1 (char 0)"))
  /\ r.2 = [].
Proof.
  rewrite (chat_undecodable_body
             (with_key (stub_genai (Ok {| candidates := [text_candidate "hello" 1] |})))
             {| json := Raise (Exception_ (py "Expecting value: line 1 column 1 (char 0)")) |}
             (Exception_ (py "Expecting value: line 1 column 1 (char 0)")) eq_refl).
  repeat split.
Defined.

(** X3: a JSON body that is not an object (a list, a string, a number,
    [null]) has no [get]: the reply is the outer apology with the
    [AttributeError] under [error], and the provider is not called. *)
Theorem chat_body_not_object (w : World) (request : Request) (data : pyval) :
  json request = Ok data ->
  (forall d, data <> PyDict d) ->
  POST_chat w request =
  ({| status := 200;
      body := PyDict (chat_error_reply w (AttributeError (type_name data) (py "get"))) |},
   []).
Proof.
  intros Hjson Hnot. unfold POST_chat. apply serve_returned.
  unfold chat_endpoint, try_except, bind, lift, ret.
  rewrite Hjson.
  destruct data; try reflexivity. by destruct (Hnot d).
Qed.

(** X3 at the body [[]]. *)
Lemma chat_body_not_object_witness :
  let r := POST_chat (with_key (stub_genai (Ok {| candidates := [text_candidate "hello" 1] |})))
                     {| json := Ok (PyList []) |} in
  status r.1 = 200
  /\ field r.1 "error" = Some (PyStr (py "'list' object has no attribute 'get'"))
  /\ r.2 = [].
Proof.
  rewrite (chat_body_not_object
             (with_key (stub_genai (Ok {| candidates := [text_candidate "hello" 1] |})))
             {| json := Ok (PyList []) |} (PyList []) eq_refl);
    [repeat split | discriminate].
Defined.

(** X4: a "message" that is not a str (a number, [null], a list, an object)
    has no [strip]: the reply is the outer apology with the [AttributeError]
    under [error], and the provider is not called. *)
Theorem chat_message_not_str (w : World) (request : Request) (d : pydict) (v : pyval) :
  json request = Ok (PyDict d) ->
  d !! py "message" = Some v ->
  (forall s, v <> PyStr s) ->
  POST_chat w request =
  ({| status := 200;
      body := PyDict (chat_error_reply w (AttributeError (type_name v) (py "strip"))) |},
   []).
Proof.
  intros Hjson Hmsg Hnot. unfold POST_chat. apply serve_returned.
  unfold chat_endpoint, try_except, bind, lift, ret.
  rewrite Hjson. cbn [py_get]. rewrite Hmsg.
  destruct v; try reflexivity. by destruct (Hnot s).
Qed.

(** X4 at the body [{"message": null}]. *)
Lemma chat_message_not_str_witness :
  let r := POST_chat (with_key (stub_genai (Ok {| candidates := [text_candidate "hello" 1] |})))
                     {| json := Ok (PyDict (<[py "message" := PyNone]> ∅)) |} in
  status r.1 = 200
  /\ field r.1 "error" = Some (PyStr (py "'NoneType' object has no attribute 'strip'"))
  /\ r.2 = [].
Proof.
  rewrite (chat_message_not_str
             (with_key (stub_genai (Ok {| candidates := [text_candidate "hello" 1] |})))
             {| json := Ok (PyDict (<[py "message" := PyNone]> ∅)) |}
             (<[py "message" := PyNone]> ∅) PyNone);
    [repeat split | reflexivity | reflexivity | discriminate].
Defined.

(** X5: an object without a "message" key is treated like an empty message:
    the default [""] fails the blank test, so the reply carries the text of
    the 400 under [error] and the provider is not called. *)
Theorem chat_missing_message_key (w : World) (request : Request) (d : pydict) :
  json request = Ok (PyDict d) ->
  d !! py "message" = None ->
  POST_chat w request =
  ({| status := 200;
      body := PyDict (chat_error_reply w (HTTPException 400 (py "Message cannot be empty"))) |},
   []).
Proof.
  intros Hjson Hmsg. unfold POST_chat. apply serve_returned.
  by apply (chat_missing_message w request d).
Qed.

(** X5 at the body [{}]. *)
Lemma chat_missing_message_key_witness :
  let r := POST_chat (with_key (stub_genai (Ok {| candidates := [text_candidate "hello" 1] |})))
                     {| json := Ok (PyDict ∅) |} in
  status r.1 = 200
  /\ field r.1 "error" = Some (PyStr (py "400: Message cannot be empty"))
  /\ r.2 = [].
Proof.
  rewrite (chat_missing_message_key
             (with_key (stub_genai (Ok {| candidates := [text_candidate "hello" 1] |})))
             {| json := Ok (PyDict ∅) |} ∅);
    [repeat split | reflexivity | reflexivity].
Defined.

(** ** POST /chat: what reaches the provider *)

(** X6: the provider is called only for a request that passed both guards:
    if the trace is not empty, the body carried a str message that is not
    blank and a credential is configured. *)
Theorem chat_provider_called_only_when_valid (w : World) (request : Request) :
  (POST_chat w request).2 <> [] ->
  exists m, carries_message request m /\ ~ blank m /\ credential_configured w.
Proof.
  unfold POST_chat, serve, chat_endpoint, try_except, bind, lift, call, ret, raise_,
    carries_message.
  destruct (json request) as [data|e]; [|done].
  destruct data as [| | | | |l|d]; try done. cbn [py_get].
  destruct (d !! py "message") as [v|] eqn:Hmsg; [|done].
  destruct v as [| | | |m| |]; try done. cbn [py_strip].
  destruct (bool_str (strip m)) eqn:Hstrip; cbn [negb]; [|done].
  destruct (truthy (GEMINI_API_KEY w)) eqn:Hkey; cbn [negb]; [|done].
  intros _. exists m. split; [by eexists|].
  split; [by apply not_blank_strip | by apply credential_truthy].
Qed.

(** X6 at the request "hi" with a credential and a stub that answers. *)
Lemma chat_provider_called_only_when_valid_witness :
  exists m,
    carries_message (message_request (py "hi")) m /\ ~ blank m
    /\ credential_configured
         (with_key (stub_genai (Ok {| candidates := [text_candidate "hello" 1] |}))).
Proof.
  apply (chat_provider_called_only_when_valid
           (with_key (stub_genai (Ok {| candidates := [text_candidate "hello" 1] |})))
           (message_request (py "hi"))).
  vm_compute. discriminate.
Defined.

(** X7: a request that passed both guards and whose log line can be written
    constructs the model once, with the fixed model name, generation config
    and safety settings; if that succeeds, [generate_content] is called
    once, with the message exactly as it was sent (not stripped); nothing
    else is called. *)
Theorem chat_provider_calls (w : World) (request : Request) (m : pystr) :
  carries_message request m -> ~ blank m -> credential_configured w ->
  loggable m ->
  (POST_chat w request).2 =
  match GenerativeModel (genai w) MODEL_NAME generation_config safety_settings with
  | Ok _ => both_calls (PyStr m)
  | Raise _ => [CallGenerativeModel MODEL_NAME generation_config safety_settings]
  end.
Proof.
  intros Hmsg Hnb Hkey Hlog. unfold POST_chat, serve.
  chat_prelude Hmsg Hnb Hkey Hlog.
  destruct (GenerativeModel _ _ _ _) as [model|e]; [|done].
  destruct (generate_content model (PyStr m)) as [response|e]; [|done].
  by destruct (bool_decide _).
Qed.

(** X7 at a message with white space around it. *)
Lemma chat_provider_calls_witness :
  (POST_chat (with_key (stub_genai (Ok {| candidates := [text_candidate "hello" 1] |})))
             (message_request (py "  hi  "))).2
  = [CallGenerativeModel MODEL_NAME generation_config safety_settings;
     CallGenerateContent (PyStr (py "  hi  "))].
Proof.
  apply (chat_provider_calls
           (with_key (stub_genai (Ok {| candidates := [text_candidate "hello" 1] |})))
           (message_request (py "  hi  ")) (py "  hi  ")).
  - apply message_request_carries.
  - apply not_blank_strip. reflexivity.
  - apply with_key_configured.
  - vm_compute. repeat constructor.
Defined.

(** X8: for a request that reached the provider and got a first candidate,
    the reply has no [error] and its [filtered] flag is true exactly when
    that candidate's finish reason is 2, with or without text: 2 is the
    provider's [MAX_TOKENS], so a candidate stopped for [SAFETY] is reported
    with [filtered] false. *)
Theorem chat_filtered_follows_literal_2 (w : World) (request : Request) (m : pystr)
    (response : GenerateContentResponse) (c : Candidate) (rest : list Candidate) :
  carries_message request m -> ~ blank m -> credential_configured w ->
  loggable m ->
  provider_outcome w (PyStr m) = Ok response ->
  candidates response = c :: rest ->
  let r := (POST_chat w request).1 in
  status r = 200
  /\ field r "error" = None
  /\ exists b : bool,
       field r "filtered" = Some (PyBool b)
       /\ (b = true <-> finish_reason c = MAX_TOKENS)
       /\ (finish_reason c = SAFETY -> b = false).
Proof.
  intros Hmsg Hnb Hkey Hlog Hout Hc. unfold POST_chat.
  assert (exists txt,
             chat_endpoint w request [] =
             (Ok (chat_reply txt (bool_decide (finish_reason c = 2))),
              both_calls (PyStr m))) as [txt Hrun].
  { destruct (content c) as [ct|] eqn:Hct.
    - destruct (parts ct) as [|p ps] eqn:Hp.
      + eexists. apply (chat_first_no_parts w request m Hmsg Hnb Hkey Hlog response c rest Hout Hc).
        right. by exists ct.
      + eexists. apply (chat_first_text w request m Hmsg Hnb Hkey Hlog response c rest ct p ps Hout Hc Hct Hp).
    - eexists. apply (chat_first_no_parts w request m Hmsg Hnb Hkey Hlog response c rest Hout Hc).
      by left. }
  rewrite (serve_returned _ _ _ Hrun).
  unfold field. cbn [fst status body]. autorewrite with reply.
  split; [done|]. split; [done|].
  exists (bool_decide (finish_reason c = 2)). split; [done|].
  unfold MAX_TOKENS, SAFETY. split.
  - apply bool_decide_eq_true.
  - intros Hs. apply bool_decide_eq_false. lia.
Qed.

(** X8 at a stub whose only candidate was stopped by the safety filter. *)
Lemma chat_filtered_follows_literal_2_witness :
  let r := (POST_chat (with_key (stub_genai (Ok {| candidates := [empty_candidate SAFETY] |})))
                      (message_request (py "hi"))).1 in
  status r = 200
  /\ field r "error" = None
  /\ exists b : bool,
       field r "filtered" = Some (PyBool b)
       /\ (b = true <-> finish_reason (empty_candidate SAFETY) = MAX_TOKENS)
       /\ (finish_reason (empty_candidate SAFETY) = SAFETY -> b = false).
Proof.
  apply (chat_filtered_follows_literal_2
           (with_key (stub_genai (Ok {| candidates := [empty_candidate SAFETY] |})))
           (message_request (py "hi")) (py "hi")
           {| candidates := [empty_candidate SAFETY] |} (empty_candidate SAFETY) []).
  - apply message_request_carries.
  - apply not_blank_strip. reflexivity.
  - apply with_key_configured.
  - vm_compute. repeat constructor.
  - reflexivity.
  - reflexivity.
Defined.



(** ** GET /test *)

(** X9: without a credential GET /test answers
    {success: false, error: "Gemini API key not configured"} with status 200
    and does not call the provider. *)
Theorem test_without_credential (w : World) :
  ~ credential_configured w ->
  GET_test w =
  ({| status := 200;
      body := PyDict (<[py "success" := PyBool false]>
                     (<[py "error" := PyStr (py "Gemini API key not configured")]> ∅)) |},
   []).
Proof.
  intros Hkey. unfold GET_test, serve, test_endpoint.
  destruct (truthy (GEMINI_API_KEY w)) eqn:Ht; [|done].
  by apply credential_truthy in Ht.
Qed.

(** X9 in a world with an empty environment. *)
Lemma test_without_credential_witness :
  let r := GET_test (without_key (stub_genai (Ok {| candidates := [text_candidate "pong" 1] |}))) in
  status r.1 = 200
  /\ field r.1 "success" = Some (PyBool false)
  /\ field r.1 "error" = Some (PyStr (py "Gemini API key not configured"))
  /\ r.2 = [].
Proof.
  rewrite (test_without_credential
             (without_key (stub_genai (Ok {| candidates := [text_candidate "pong" 1] |}))));
    [repeat split | apply without_key_unconfigured].
Defined.


(** X11: with a credential, a provider that returns no candidate at all, or
    a first candidate without content parts, still makes GET /test answer
    [success] true, with the fixed "filtered" sentence as [response]. *)
Theorem test_no_text_fallback (w : World) (response : GenerateContentResponse) :
  credential_configured w ->
  provider_outcome w test_prompt = Ok response ->
  (candidates response = []
   \/ exists c rest, candidates response = c :: rest /\ no_parts c) ->
  (GET_test w).1 =
  {| status := 200;
     body := PyDict (<[py "success" := PyBool true]>
                    (<[py "model" := PyStr MODEL_NAME]>
                    (<[py "response" := PyStr (py "I'm functioning correctly, but this test response was filtered.")]> ∅))) |}.
Proof.
  intros Hkey Hout Hno. apply credential_truthy in Hkey.
  unfold GET_test, serve, test_endpoint, provider_outcome in *.
  rewrite Hkey. cbn [negb]. unfold try_except, bind, call, ret.
  destruct (GenerativeModel _ _ _ _) as [model|e]; [|done].
  rewrite Hout.
  destruct Hno as [-> | (c & rest & -> & [Hc | (ct & Hc & Hp)])]; cbn.
  - reflexivity.
  - by rewrite Hc.
  - rewrite Hc. cbn. by rewrite Hp.
Qed.

(** X11 at a stub that returns zero candidates. *)
Lemma test_no_text_fallback_witness :
  let r := (GET_test (with_key (stub_genai (Ok {| candidates := [] |})))).1 in
  field r "success" = Some (PyBool true)
  /\ field r "response" = Some (PyStr (py "I'm functioning correctly, but this test response was filtered.")).
Proof.
  rewrite (test_no_text_fallback
             (with_key (stub_genai (Ok {| candidates := [] |}))) {| candidates := [] |});
    [split; reflexivity | apply with_key_configured | reflexivity | left; reflexivity].
Defined.

(** X12: with a credential GET /test constructs the model once, with the
    fixed configuration, and then, if that succeeds, calls
    [generate_content] once with the fixed prompt; nothing else is called. *)
Theorem test_provider_calls (w : World) :
  credential_configured w ->
  (GET_test w).2 =
  match GenerativeModel (genai w) MODEL_NAME generation_config safety_settings with
  | Ok _ => both_calls (PyStr (py "Hello, are you working properly?"))
  | Raise _ => [CallGenerativeModel MODEL_NAME generation_config safety_settings]
  end.
Proof.
  intros Hkey. apply credential_truthy in Hkey.
  unfold GET_test, serve, test_endpoint.
  rewrite Hkey. cbn [negb]. unfold try_except, bind, call, ret.
  destruct (GenerativeModel _ _ _ _) as [model|e]; [|done].
  by destruct (generate_content model test_prompt).
Qed.

(** X12 at a provider whose model cannot be constructed. *)
Lemma test_provider_calls_witness :
  (GET_test (with_key (broken_genai (Exception_ (py "invalid model"))))).2
  = [CallGenerativeModel MODEL_NAME generation_config safety_settings].
Proof.
  apply (test_provider_calls (with_key (broken_genai (Exception_ (py "invalid model"))))).
  apply with_key_configured.
Defined.

(** * The start-up loop *)

(** What one run of the loop over the attempts [a, a+1, ..., max_retries-1]
    starting at [port] can end in. *)
Lemma retry_loop_sound (h : Host) (k : nat) :
  forall (a port : Z) (o : main_outcome) (tried : list Z),
    a + Z.of_nat k = max_retries ->
    retry_loop h (seqZ a (Z.of_nat k)) port = (o, tried) ->
    match o with
    | Served p =>
        port <= p < port + Z.of_nat k
        /\ tried = seqZ port (p - port + 1)
        /\ uvicorn_run h p = None
        /\ (forall q, port <= q < p -> busy h q)
    | Failed e =>
        exists p,
          port <= p < port + Z.of_nat k
          /\ tried = seqZ port (p - port + 1)
          /\ uvicorn_run h p = Some e
          /\ (forall q, port <= q < p -> busy h q)
          /\ (in_use h e = false \/ p = port + Z.of_nat k - 1)
    | LoopEnded => k = 0%nat /\ tried = []
    end.
Proof.
  induction k as [|k IH]; intros a port o tried Ha Hrun.
  - cbn in Hrun. by injection Hrun as <- <-.
  - rewrite seqZ_cons in Hrun by lia.
    replace (Z.pred (Z.of_nat (S k))) with (Z.of_nat k) in Hrun by lia.
    cbn [retry_loop] in Hrun.
    destruct (uvicorn_run h port) as [[msg|msg]|] eqn:Hport.
    + destruct (contains (py "address already in use") (lower h msg)) eqn:Hin;
        [destruct (bool_decide (a < max_retries - 1)) eqn:Hlast|]; cbn [andb] in Hrun.
      * apply bool_decide_eq_true_1 in Hlast.
        destruct (retry_loop h (seqZ (Z.succ a) (Z.of_nat k)) (port + 1))
          as [o' tried'] eqn:Hrest.
        injection Hrun as <- <-.
        assert (forall p, port + 1 <= p ->
                  (forall q', port + 1 <= q' < p -> busy h q') ->
                  forall q, port <= q < p -> busy h q) as Hbusy.
        { intros p Hp Hall q Hq. destruct (decide (q = port)) as [->|Hne].
          - exists (OSError msg). by split.
          - apply Hall. lia. }
        specialize (IH (Z.succ a) (port + 1) o' tried' ltac:(lia) Hrest).
        destruct o' as [p|e|].
        -- destruct IH as (Hp & -> & Hfree & Hall).
           split; [lia|]. split; [|split; [done | apply Hbusy; [lia | done]]].
           rewrite (seqZ_cons port) by lia. f_equal. f_equal; lia.
        -- destruct IH as (p & Hp & -> & Hfail & Hall & Hwhy).
           exists p. split; [lia|].
           split; [|split; [done | split; [apply Hbusy; [lia | done] | destruct Hwhy; [by left | right; lia]]]].
           rewrite (seqZ_cons port) by lia. f_equal. f_equal; lia.
        -- destruct IH as (-> & _). unfold max_retries in *. lia.
      * apply bool_decide_eq_false_1 in Hlast.
        injection Hrun as <- <-. exists port.
        split; [lia|]. split; [by replace (port - port + 1) with 1 by lia|].
        split; [done|]. split; [intros q ?; lia|]. right. unfold max_retries in *. lia.
      * injection Hrun as <- <-. exists port.
        split; [lia|]. split; [by replace (port - port + 1) with 1 by lia|].
        split; [done|]. split; [intros q ?; lia|]. by left.
    + injection Hrun as <- <-. exists port.
      split; [lia|]. split; [by replace (port - port + 1) with 1 by lia|].
      split; [done|]. split; [intros q ?; lia|]. by left.
    + injection Hrun as <- <-.
      split; [lia|]. split; [by replace (port - port + 1) with 1 by lia|].
      split; [done | intros q ?; lia].
Qed.

(** The same for the whole script: five attempts from port 8095. *)
Lemma main_sound (h : Host) (o : main_outcome) (tried : list Z) :
  main h = (o, tried) ->
  match o with
  | Served p =>
      8095 <= p <= 8099
      /\ tried = seqZ 8095 (p - 8094)
      /\ uvicorn_run h p = None
      /\ (forall q, 8095 <= q < p -> busy h q)
  | Failed e =>
      exists p,
        8095 <= p <= 8099
        /\ tried = seqZ 8095 (p - 8094)
        /\ uvicorn_run h p = Some e
        /\ (forall q, 8095 <= q < p -> busy h q)
        /\ (in_use h e = false \/ p = 8099)
  | LoopEnded => False
  end.
Proof.
  intros Hmain. unfold main in Hmain.
  pose proof (retry_loop_sound h 5 0 8095 o tried ltac:(done) Hmain) as H.
  destruct o as [p|e|].
  - destruct H as (Hp & -> & Hfree & Hall).
    split; [lia|]. split; [f_equal; lia | done].
  - destruct H as (p & Hp & -> & Hfail & Hall & Hwhy).
    exists p. split; [lia|]. split; [f_equal; lia|].
    split; [done|]. split; [done|]. destruct Hwhy; [by left | right; lia].
  - by destruct H.
Qed.

(** A busy port did not serve, and its error is one the loop retries on. *)
Lemma busy_inv (h : Host) (q : Z) :
  busy h q ->
  uvicorn_run h q <> None
  /\ forall e, uvicorn_run h q = Some e -> in_use h e = true.
Proof.
  intros (e & Hrun & Hin). split; [congruence|].
  intros e' He'. congruence.
Qed.

(** Facts about the stub hosts. *)
Lemma host_free_from_busy (free q : Z) : q < free -> busy (host_free_from free) q.
Proof.
  intros Hq. exists (OSError (py "[Errno 98] Address already in use")).
  split; [|reflexivity].
  cbn. by rewrite bool_decide_eq_true_2.
Qed.

Lemma host_failing_at_busy (bad q : Z) (e : startup_error) :
  q < bad -> busy (host_failing_at bad e) q.
Proof.
  intros Hq. exists (OSError (py "[Errno 98] Address already in use")).
  split; [|reflexivity].
  cbn. by rewrite bool_decide_eq_true_2.
Qed.

(** X13: the script hands [uvicorn.run] between one and five ports, which
    are 8095, 8096, ... in this order, and it ends either with the server
    having run or with an exception: the [for] never runs out silently. *)
Theorem main_tries_consecutive_ports (h : Host) :
  exists n,
    1 <= n <= 5
    /\ (main h).2 = seqZ 8095 n
    /\ (main h).1 <> LoopEnded.
Proof.
  destruct (main h) as [o tried] eqn:Hmain.
  pose proof (main_sound h o tried Hmain) as H.
  destruct o as [p|e|]; cbn [fst snd].
  - destruct H as (Hp & -> & _). exists (p - 8094). split; [lia | done].
  - destruct H as (p & Hp & -> & _). exists (p - 8094). split; [lia | done].
  - done.
Qed.

(** X14: the server runs on the first port from 8095 to 8099 that is not in
    use: if every port below [p] fails with an address-in-use [OSError] and
    [uvicorn.run] returns on [p], the script serves on [p] after trying
    exactly the ports 8095 to [p]. *)
Theorem main_serves_first_free_port (h : Host) (p : Z) :
  8095 <= p <= 8099 ->
  (forall q, 8095 <= q < p -> busy h q) ->
  uvicorn_run h p = None ->
  main h = (Served p, seqZ 8095 (p - 8094)).
Proof.
  intros Hp Hbusy Hfree.
  destruct (main h) as [o tried] eqn:Hmain.
  pose proof (main_sound h o tried Hmain) as H.
  destruct o as [p'|e|]; [| |done].
  - destruct H as (Hp' & -> & Hfree' & Hall).
    destruct (Z.lt_trichotomy p' p) as [Hlt | [-> | Hgt]]; [|done|].
    + destruct (busy_inv h p' (Hbusy p' ltac:(lia))) as [Hne _]. by destruct Hne.
    + destruct (busy_inv h p (Hall p ltac:(lia))) as [Hne _]. by destruct Hne.
  - destruct H as (p' & Hp' & -> & Hfail & Hall & Hwhy).
    destruct (Z.lt_trichotomy p' p) as [Hlt | [-> | Hgt]].
    + destruct (busy_inv h p' (Hbusy p' ltac:(lia))) as [_ Hin].
      specialize (Hin e Hfail). destruct Hwhy; [congruence | lia].
    + congruence.
    + destruct (busy_inv h p (Hall p ltac:(lia))) as [Hne _]. by destruct Hne.
Qed.

(** X14 on a host whose ports 8095 and 8096 are taken. *)
Lemma main_serves_first_free_port_witness :
  main (host_free_from 8097) = (Served 8097, [8095; 8096; 8097]).
Proof.
  apply (main_serves_first_free_port (host_free_from 8097) 8097).
  - lia.
  - intros q Hq. apply host_free_from_busy. lia.
  - reflexivity.
Defined.

(** X15: when all five ports 8095 to 8099 are in use the script gives up:
    the exception of the fifth attempt leaves the loop although it is an
    address-in-use error, and port 8100 is never tried. *)
Theorem main_gives_up_after_five (h : Host) :
  (forall q, 8095 <= q <= 8099 -> busy h q) ->
  exists e,
    uvicorn_run h 8099 = Some e
    /\ main h = (Failed e, [8095; 8096; 8097; 8098; 8099]).
Proof.
  intros Hbusy.
  destruct (main h) as [o tried] eqn:Hmain.
  pose proof (main_sound h o tried Hmain) as H.
  destruct o as [p|e|]; [| |done].
  - destruct H as (Hp & _ & Hfree & _).
    destruct (busy_inv h p (Hbusy p Hp)) as [Hne _]. by destruct Hne.
  - destruct H as (p & Hp & -> & Hfail & _ & Hwhy).
    destruct (busy_inv h p (Hbusy p Hp)) as [_ Hin].
    specialize (Hin e Hfail).
    destruct Hwhy as [? | ->]; [congruence|]. by exists e.
Qed.

(** X15 on a host whose ports are taken up to 8099. *)
Lemma main_gives_up_after_five_witness :
  exists e,
    uvicorn_run (host_free_from 8100) 8099 = Some e
    /\ main (host_free_from 8100) = (Failed e, [8095; 8096; 8097; 8098; 8099]).
Proof.
  apply (main_gives_up_after_five (host_free_from 8100)).
  intros q Hq. apply host_free_from_busy. lia.
Defined.

(** X16: an error that is not an address-in-use [OSError] (an [OSError]
    with another text, or an exception of another class) is not retried: it
    leaves the loop at the port where it happened, and no later port is
    tried. *)
Theorem main_reraises_other_errors (h : Host) (p : Z) (e : startup_error) :
  8095 <= p <= 8099 ->
  (forall q, 8095 <= q < p -> busy h q) ->
  uvicorn_run h p = Some e ->
  in_use h e = false ->
  main h = (Failed e, seqZ 8095 (p - 8094)).
Proof.
  intros Hp Hbusy Hfail Hnot.
  destruct (main h) as [o tried] eqn:Hmain.
  pose proof (main_sound h o tried Hmain) as H.
  destruct o as [p'|e'|]; [| |done].
  - destruct H as (Hp' & -> & Hfree' & Hall).
    destruct (Z.lt_trichotomy p' p) as [Hlt | [-> | Hgt]].
    + destruct (busy_inv h p' (Hbusy p' ltac:(lia))) as [Hne _]. by destruct Hne.
    + congruence.
    + destruct (busy_inv h p (Hall p ltac:(lia))) as [_ Hin].
      specialize (Hin e Hfail). congruence.
  - destruct H as (p' & Hp' & -> & Hfail' & Hall & Hwhy).
    destruct (Z.lt_trichotomy p' p) as [Hlt | [-> | Hgt]].
    + destruct (busy_inv h p' (Hbusy p' ltac:(lia))) as [_ Hin].
      specialize (Hin e' Hfail'). destruct Hwhy; [congruence | lia].
    + congruence.
    + destruct (busy_inv h p (Hall p ltac:(lia))) as [_ Hin].
      specialize (Hin e Hfail). congruence.
Qed.

(** X16 on a host whose port 8095 is taken and whose port 8096 is refused. *)
Lemma main_reraises_other_errors_witness :
  main (host_failing_at 8096 (OSError (py "[Errno 13] Permission denied")))
  = (Failed (OSError (py "[Errno 13] Permission denied")), [8095; 8096]).
Proof.
  apply (main_reraises_other_errors
           (host_failing_at 8096 (OSError (py "[Errno 13] Permission denied"))) 8096
           (OSError (py "[Errno 13] Permission denied"))).
  - lia.
  - intros q Hq. apply host_failing_at_busy. lia.
  - reflexivity.
  - reflexivity.
Defined.
